(** * Wild Apricot social provider (better-auth): a shallow embedding

    Source: [packages/better-auth/src/social-providers/wildapricot.ts].

    The adapter is a record of four functions closed over an options object.
    Its behaviour is decided by a handful of JavaScript operators
    (truthiness tests, [||], [??], [?.], object spread, template literals,
    [String], [Array.prototype.includes], [String.prototype.split],
    [new Date]).  Module [JS] embeds those operators over a small universe
    of run-time values; module [WildApricot] embeds the adapter on top of
    them, one definition per source function, keeping the source names.
    The one object the adapter shares with foreign code, the profile it
    hands to the mapping function, is modelled with the state that call
    leaves it in. *)

From Stdlib Require Import ZArith String Ascii List Lia.
From stdpp Require Import gmap strings pretty.

Set Warnings "-register-all".

Open Scope Z_scope.

(** ** The JavaScript fragment used by the adapter *)

Module JS.

(** A JS [number]: [NaN], the two infinities, and [Fin z] for the
    integer-valued double [z].  Doubles with a fractional part are outside
    the model.  Arithmetic on [Fin] is exact; statements that depend on
    the value of a sum or a product carry the bounds under which the
    doubles are exact too. *)
Inductive number :=
| NaN
| Infinity (negative : bool)
| Fin (z : Z).



(** Run-time values: what [JSON.parse] can produce, plus [undefined] (a
    missing property).  A string is a sequence of code units, one [ascii]
    per unit.  An object is a finite map from property names to values
    (own enumerable data properties; no accessors, no custom prototype). *)
Inductive value :=
| VUndef
| VNull
| VBool (b : bool)
| VNum (n : number)
| VStr (s : string)
| VArr (l : list value)
| VObj (m : gmap string value).

(** What a [throw] carries. *)
Inductive exn :=
| TypeError
| APIError (status : string) (message : string)
| Thrown (v : value).

(** Outcome of evaluating a piece of code: a value or a thrown exception. *)
Inductive completion (A : Type) :=
| Normal (a : A)
| Throw (e : exn).
Arguments Normal {A} a.
Arguments Throw {A} e.

#[global] Instance completion_ret : MRet completion := @Normal.
#[global] Instance completion_bind : MBind completion :=
  fun A B f c => match c with Normal a => f a | Throw e => Throw e end.

(** *** Truthiness, [||], [??] *)

Definition number_truthy (n : number) : bool :=
  match n with
  | NaN => false
  | Infinity _ => true
  | Fin z => negb (z =? 0)
  end.

(** ToBoolean. *)
Definition truthy (v : value) : bool :=
  match v with
  | VUndef | VNull => false
  | VBool b => b
  | VNum n => number_truthy n
  | VStr EmptyString => false
  | VStr (String _ _) => true
  | VArr _ | VObj _ => true
  end.

Definition nullish (v : value) : bool :=
  match v with
  | VUndef | VNull => true
  | _ => false
  end.

(** [a || b] on already evaluated operands. *)
Definition or_else (a b : value) : value := if truthy a then a else b.

(** [a ?? b] on already evaluated operands. *)
Definition coalesce (a b : value) : value := if nullish a then b else a.

(** *** Property access

    [v.k] for the property names the adapter reads ([access_token],
    [Status], [Id], ...): none of them is an index, [length], or a name
    found on a built-in prototype, so a primitive or an array answers
    [undefined] and an object answers its own property. *)
Definition get_prop (v : value) (k : string) : completion value :=
  match v with
  | VUndef | VNull => Throw TypeError
  | VObj m => Normal (default VUndef (m !! k))
  | _ => Normal VUndef
  end.

(** [v?.k] *)
Definition get_prop_opt (v : value) (k : string) : completion value :=
  if nullish v then Normal VUndef else get_prop v k.

(** *** ToString, [String(v)], template literals *)

(** Beyond the safe integers JavaScript prints the shortest digits that
    identify the double, and from [10^21] an exponent form.  Those numerals
    are not modelled: the numeral of an integer-valued double that is not
    a safe integer is a parameter. *)
Class LargeNumerals := large_numeral : Z -> string.

Section Printing.
Context `{LargeNumerals}.

(** Number::toString: a safe integer prints as its decimal numeral, with a
    leading minus sign when negative. *)
Definition number_to_string (n : number) : string :=
  match n with
  | NaN => "NaN"
  | Infinity false => "Infinity"
  | Infinity true => "-Infinity"
  | Fin z =>
      if Z.abs z <=? 9007199254740991 then pretty z else large_numeral z
  end.

(** ToString.  An array prints its elements joined by commas
    ([Array.prototype.join]: [undefined] and [null] elements print as the
    empty string).  A plain object prints as ["[object Object]"], unless
    it has an own [toString] property: that property shadows
    [Object.prototype.toString], is not callable (no value of this
    universe is), and the conversion ends in a TypeError. *)
Fixpoint ToString (v : value) : completion string :=
  match v with
  | VUndef => Normal "undefined"
  | VNull => Normal "null"
  | VBool true => Normal "true"
  | VBool false => Normal "false"
  | VNum n => Normal (number_to_string n)
  | VStr s => Normal s
  | VArr l =>
      (fix join (l : list value) : completion string :=
         match l with
         | [] => Normal EmptyString
         | x :: rest =>
             s ← (if nullish x then Normal EmptyString else ToString x);
             match rest with
             | [] => Normal s
             | _ => r ← join rest; Normal (s +:+ "," +:+ r)
             end
         end) l
  | VObj m =>
      match m !! "toString" with
      | Some _ => Throw TypeError
      | None => Normal "[object Object]"
      end
  end.

End Printing.

(** *** Numbers: ToNumber, [+] and [*] on numbers

    The product and the sum are the exact ones.  A double product or sum
    is the exact one whenever that is a double: every safe integer is, and
    so is every multiple of [1000] below [2^56]. *)

Definition number_mul (a b : number) : number :=
  match a, b with
  | NaN, _ | _, NaN => NaN
  | Infinity s, Infinity t => Infinity (xorb s t)
  | Infinity s, Fin z | Fin z, Infinity s =>
      if z =? 0 then NaN else Infinity (xorb s (z <? 0))
  | Fin x, Fin y => Fin (x * y)
  end.

Definition number_add (a b : number) : number :=
  match a, b with
  | NaN, _ | _, NaN => NaN
  | Infinity s, Infinity t => if Bool.eqb s t then Infinity s else NaN
  | Infinity s, Fin _ | Fin _, Infinity s => Infinity s
  | Fin x, Fin y => Fin (x + y)
  end.

Section ToNumber.
(** The StringToNumber grammar of ECMAScript is not modelled; the
    conversion of a string to a number is a parameter. *)
Context `{LargeNumerals}.
Variable StringToNumber : string -> number.

Definition ToNumber (v : value) : completion number :=
  match v with
  | VUndef => Normal NaN
  | VNull => Normal (Fin 0)
  | VBool true => Normal (Fin 1)
  | VBool false => Normal (Fin 0)
  | VNum n => Normal n
  | VStr s => Normal (StringToNumber s)
  | VArr _ | VObj _ => s ← ToString v; Normal (StringToNumber s)
  end.
End ToNumber.

(** *** [Date] *)

(** A [Date] object is its time value: milliseconds since the epoch, or
    [NaN] for an invalid date. *)
Record Date := { time_value : number }.

Definition max_time : Z := 8640000000000000.

Definition TimeClip (t : number) : number :=
  match t with
  | Fin z => if Z.abs z <=? max_time then Fin z else NaN
  | _ => NaN
  end.

(** [new Date(t)] for a number [t]. *)
Definition new_Date (t : number) : Date := {| time_value := TimeClip t |}.

(** *** [Array.prototype.includes] on an array of string literals *)

(** SameValueZero between a string and any value. *)
Definition same_value_zero (s : string) (v : value) : bool :=
  match v with
  | VStr t => String.eqb s t
  | _ => false
  end.

Definition includes (l : list string) (v : value) : bool :=
  existsb (fun s => same_value_zero s v) l.

(** *** [String.prototype.split] with a one-unit separator *)

Fixpoint split (sep : ascii) (s : string) : list string :=
  match s with
  | EmptyString => [EmptyString]
  | String c rest =>
      if Ascii.eqb c sep then EmptyString :: split sep rest
      else match split sep rest with
           | [] => [String c EmptyString]
           | piece :: pieces => String c piece :: pieces
           end
  end.

(** *** Object spread *)

Fixpoint index_props_from {A} (f : A -> value) (i : nat) (l : list A)
  : gmap string value :=
  match l with
  | [] => ∅
  | x :: rest => <[pretty i := f x]> (index_props_from f (S i) rest)
  end.

(** The own enumerable properties that [{...v}] copies: the properties of
    an object, the indexed elements of an array or of a string, nothing
    for the other primitives. *)
Definition own_props (v : value) : gmap string value :=
  match v with
  | VObj m => m
  | VArr l => index_props_from (fun x => x) 0 l
  | VStr s =>
      index_props_from (fun c => VStr (String c EmptyString)) 0
        (list_ascii_of_string s)
  | _ => ∅
  end.

(** [{...target, ...v}]: a property copied later replaces an earlier one. *)
Definition spread (v : value) (target : gmap string value)
  : gmap string value :=
  own_props v ∪ target.

(** *** Objects handed to other code

    An object or an array is passed by reference: code that receives it
    can assign to its properties, and the caller sees the change when it
    reads the object again.  [after_call before after] is the state of a
    value the callee received: [after] says what the callee left ([None]:
    it left the value alone); an object stays an object, an array an
    array (with indexed elements only, as everywhere in this universe),
    and a primitive cannot be changed. *)
Definition after_call (before : value) (after : option value) : value :=
  match before, after with
  | VObj _, Some (VObj m) => VObj m
  | VArr _, Some (VArr l) => VArr l
  | _, _ => before
  end.

End JS.

(** ** The adapter *)

Module WildApricot.
Import JS.

(** What a call of the mapping function leaves behind.  The function
    receives the profile object itself, not a copy: besides returning a
    value it may have changed the two objects [getUserInfo] reads again
    afterwards, the profile and the value of [Email] held by [baseUser]
    ([None]: left alone). *)
Record MappingOutcome := {
  returned : value;
  profile_after : option value;
  Email_after : option value
}.

(** [WildApricotOptions].  Optional fields are [option]s; the mapping
    function receives the raw profile and may return anything, change the
    profile, or throw. *)
Record WildApricotOptions := {
  clientId : string;
  clientSecret : string;
  siteName : option string;
  accountId : string;
  redirectURI : option string;
  scopes : option (list string);
  mapProfileToUser : option (value -> completion MappingOutcome)
}.

(** The [options] argument of the shared OAuth2 helpers. *)
Record ProviderOptions := {
  po_clientId : string;
  po_clientSecret : string;
  po_redirectURI : option string
}.

(** Argument of the shared [createAuthorizationURL] helper. *)
Record AuthorizationURLRequest := {
  au_id : string;
  au_options : ProviderOptions;
  authorizationEndpoint : string;
  au_state : string;
  au_scopes : list string;
  au_redirectURI : string
}.

(** Argument of the shared [validateAuthorizationCode] helper. *)
Record CodeValidationRequest := {
  cv_code : string;
  cv_codeVerifier : option string;
  cv_redirectURI : string;
  cv_options : ProviderOptions;
  tokenEndpoint : string;
  authentication : string
}.

(** [OAuth2Tokens] *)
Record OAuth2Tokens := {
  accessToken : value;
  refreshToken : value;
  accessTokenExpiresAt : option Date;
  tokenScopes : option (list string)
}.

(** Second argument of [betterFetch]. *)
Record RequestInit := {
  method : option string;
  headers : list (string * string);
  body : option (list (string * string))
}.

(** What [betterFetch] resolves to. *)
Record FetchResponse := {
  data : value;
  error : value
}.


(** [siteName ? `https://${siteName}.wildapricot.org` : `https://www.wildapricot.org`] *)
Definition WA_SITE_URL (options : WildApricotOptions) : string :=
  match siteName options with
  | Some name =>
      if truthy (VStr name)
      then "https://" +:+ name +:+ ".wildapricot.org"
      else "https://www.wildapricot.org"
  | None => "https://www.wildapricot.org"
  end.

Definition WA_BASE_URL : string := "https://oauth.wildapricot.org".
Definition WA_API_URL : string := "https://api.wildapricot.org".

Definition isActiveMember (status : value) : bool :=
  includes ["Active"; "PendingRenewal"; "PendingLevelChange"] status.

(** [scopes || ["contacts_me"]] *)
Definition effective_scopes (options : WildApricotOptions) : list string :=
  match scopes options with
  | Some l => if truthy (VArr (map VStr l)) then l else ["contacts_me"]
  | None => ["contacts_me"]
  end.

Section Provider.
(** The world around the adapter: the two helpers of [../oauth2], the
    HTTP client, the clock, [Buffer]'s base64 encoder, the string to
    number conversion and the numerals of large numbers. *)
Context {AuthURL TokenPromise : Type}.
Context `{LargeNumerals}.
Variable oauth2_createAuthorizationURL : AuthorizationURLRequest -> AuthURL.
Variable oauth2_validateAuthorizationCode : CodeValidationRequest -> TokenPromise.
Variable betterFetch : string -> RequestInit -> completion FetchResponse.
Variable Date_now : Z.
Variable base64 : string -> string.
Variable StringToNumber : string -> number.

Variable options : WildApricotOptions.

Definition provider_options : ProviderOptions :=
  {| po_clientId := clientId options;
     po_clientSecret := clientSecret options;
     po_redirectURI := redirectURI options |}.

(** What [createAuthorizationURL] hands to the shared helper. *)
Definition authorization_request (state redirect : string)
  : AuthorizationURLRequest :=
  {| au_id := "wildapricot";
     au_options := provider_options;
     authorizationEndpoint := WA_SITE_URL options +:+ "/sys/login/OAuthLogin";
     au_state := state;
     au_scopes := effective_scopes options;
     au_redirectURI := redirect |}.

Definition createAuthorizationURL (state redirect : string) : AuthURL :=
  oauth2_createAuthorizationURL (authorization_request state redirect).

Definition validateAuthorizationCode
    (code : string) (codeVerifier : option string) (redirect : string)
  : TokenPromise :=
  oauth2_validateAuthorizationCode
    {| cv_code := code;
       cv_codeVerifier := codeVerifier;
       cv_redirectURI := redirect;
       cv_options := provider_options;
       tokenEndpoint := WA_BASE_URL +:+ "/auth/token";
       authentication := "basic" |}.

Definition refresh_request (refresh_token : string) : RequestInit :=
  {| method := Some "POST";
     headers :=
       [("Content-Type", "application/x-www-form-urlencoded");
        ("Authorization",
         "Basic " +:+ base64 (clientId options +:+ ":" +:+ clientSecret options))];
     body := Some [("grant_type", "refresh_token");
                   ("refresh_token", refresh_token)] |}.

(** [expires_in ? new Date(Date.now() + expires_in * 1000) : undefined] *)
Definition expiry (expires_in : value) : completion (option Date) :=
  if truthy expires_in
  then n ← ToNumber StringToNumber expires_in;
       Normal (Some (new_Date (number_add (Fin Date_now)
                                          (number_mul n (Fin 1000)))))
  else Normal None.

(** [scope?.split(" ")]: a string is split, [undefined] and [null]
    short-circuit, any other value has no [split] method. *)
Definition split_scope (scope : value) : completion (option (list string)) :=
  if nullish scope then Normal None
  else match scope with
       | VStr s => Normal (Some (split " " s))
       | _ => Throw TypeError
       end.

Definition refreshAccessToken (refresh_token : string)
  : completion OAuth2Tokens :=
  response ← betterFetch (WA_BASE_URL +:+ "/auth/token")
               (refresh_request refresh_token);
  if truthy (error response)
  then Throw (APIError "BAD_REQUEST" "Failed to refresh access token")
  else
    access_token ← get_prop (data response) "access_token";
    refresh_token' ← get_prop (data response) "refresh_token";
    expires_in ← get_prop (data response) "expires_in";
    expiresAt ← expiry expires_in;
    scope ← get_prop (data response) "scope";
    scopes' ← split_scope scope;
    Normal {| accessToken := access_token;
              refreshToken := refresh_token';
              accessTokenExpiresAt := expiresAt;
              tokenScopes := scopes' |}.

Definition profile_url : string :=
  WA_API_URL +:+ "/v2.1/accounts/" +:+ accountId options +:+ "/contacts/me".

Definition profile_request (token : string) : RequestInit :=
  {| method := None;
     headers := [("Authorization", "Bearer " +:+ token);
                 ("Accept", "application/json")];
     body := None |}.

(** [const baseUser = { id, name, email, emailVerified, image }] *)
Definition baseUser (profile : value) : completion (gmap string value) :=
  Id ← get_prop profile "Id";
  id ← ToString Id;
  FirstName ← get_prop profile "FirstName";
  first ← ToString FirstName;
  LastName ← get_prop profile "LastName";
  last ← ToString LastName;
  Email ← get_prop profile "Email";
  Normal (<["image" := VNull]>
           (<["emailVerified" := VBool true]>
             (<["email" := Email]>
               (<["name" := VStr (first +:+ " " +:+ last)]>
                 (<["id" := VStr id]> ∅))))).

(** [options.mapProfileToUser?.(profile)]: with no mapping function nothing
    is called, the value is [undefined] and nothing changes. *)
Definition call_mapProfileToUser (profile : value) : completion MappingOutcome :=
  match mapProfileToUser options with
  | Some f => f profile
  | None => Normal {| returned := VUndef;
                      profile_after := None;
                      Email_after := None |}
  end.

(** [const additionalFields = ... || {}] *)
Definition additionalFields (call : MappingOutcome) : value :=
  or_else (returned call) (VObj ∅).

(** The profile as [getUserInfo] finds it after the call. *)
Definition profile_then (profile : value) (call : MappingOutcome) : value :=
  after_call profile (profile_after call).

(** [baseUser] as it is after the call: [id], [name], [emailVerified] and
    [image] are a string, a string, a boolean and [null]; [email] is the
    value read from the profile before the call, in the state the call
    left it. *)
Definition baseUser_then (base : gmap string value) (call : MappingOutcome)
  : gmap string value :=
  <["email" := after_call (default VUndef (base !! "email")) (Email_after call)]>
    base.

(** The [user:] literal up to, and without, [...additionalFields]:
    [{ ...baseUser, membershipStatus, membershipLevel, isActiveMember,
    isAdmin }], properties in source order. *)
Definition default_fields (profile : value) (base : gmap string value)
  : completion (gmap string value) :=
  Status ← get_prop profile "Status";
  MembershipLevel ← get_prop profile "MembershipLevel";
  LevelName ← get_prop_opt MembershipLevel "Name";
  Status' ← get_prop profile "Status";
  IsAccountAdministrator ← get_prop profile "IsAccountAdministrator";
  Normal (<["isAdmin" := IsAccountAdministrator]>
           (<["isActiveMember" := VBool (isActiveMember Status')]>
             (<["membershipLevel" := coalesce LevelName VNull]>
               (<["membershipStatus" := coalesce Status (VStr "NoMembership")]>
                 (spread (VObj base) ∅))))).

(** The whole [user:] literal. *)
Definition user_fields (profile : value) (base : gmap string value)
    (additional : value) : completion (gmap string value) :=
  defaults ← default_fields profile base;
  Normal (spread additional defaults).

(** The object [{ user, data }]. *)
Definition user_info (user : gmap string value) (profile : value) : value :=
  VObj (<["data" := profile]> (<["user" := VObj user]> ∅)).

Definition getUserInfo (tokens : OAuth2Tokens) : completion value :=
  token ← ToString (accessToken tokens);
  userInfo ← betterFetch profile_url (profile_request token);
  if truthy (error userInfo) || negb (truthy (data userInfo))
  then Normal VNull
  else
    let profile := data userInfo in
    base ← baseUser profile;
    call ← call_mapProfileToUser profile;
    user ← user_fields (profile_then profile call) (baseUser_then base call)
              (additionalFields call);
    Normal (user_info user (profile_then profile call)).

End Provider.

End WildApricot.

(** ** Vocabulary of the statements *)

Module Observations.
Import JS WildApricot.

(** [v.k] where it cannot throw ([v] is neither [undefined] nor [null]). *)
Definition field (v : value) (k : string) : value :=
  match v with
  | VObj m => default VUndef (m !! k)
  | _ => VUndef
  end.


(** The profile request resolved without an error and with the truthy
    payload [profile]: the branch of [getUserInfo] past its guard. *)
Definition fetched `{LargeNumerals}
    (betterFetch : string -> RequestInit -> completion FetchResponse)
    (options : WildApricotOptions) (tokens : OAuth2Tokens)
    (profile : value) : Prop :=
  exists token err,
    ToString (accessToken tokens) = Normal token /\
    betterFetch (profile_url options) (profile_request token)
      = Normal {| data := profile; error := err |} /\
    truthy err = false /\
    truthy profile = true.

(** The three membership states counted as active. *)
Definition active_status (status : value) : Prop :=
  status = VStr "Active" \/ status = VStr "PendingRenewal" \/
  status = VStr "PendingLevelChange".

(** Property [k] of the [user] object in what [getUserInfo] produced, if it
    produced one. *)
Definition user_field (outcome : completion value) (k : string) : option value :=
  match outcome with
  | Normal (VObj result) =>
      match result !! "user" with
      | Some (VObj user) => user !! k
      | _ => None
      end
  | _ => None
  end.

End Observations.

(** ** Concrete inputs *)

Module Fixtures.
Import JS WildApricot.

Definition club : WildApricotOptions :=
  {| clientId := "client";
     clientSecret := "secret";
     siteName := Some "myclub";
     accountId := "1234";
     redirectURI := None;
     scopes := None;
     mapProfileToUser := None |}.

(** [club] with [mapProfileToUser: () => returned] *)
Definition club_mapping (returned : gmap string value) : WildApricotOptions :=
  {| clientId := "client";
     clientSecret := "secret";
     siteName := Some "myclub";
     accountId := "1234";
     redirectURI := None;
     scopes := None;
     mapProfileToUser :=
       Some (fun _ => Normal {| returned := VObj returned;
                                profile_after := None;
                                Email_after := None |}) |}.

(** A contact record without [Status] and without [MembershipLevel]. *)
Definition contact : gmap string value :=
  <["Id" := VNum (Fin 42)]>
    (<["FirstName" := VStr "Ada"]>
      (<["LastName" := VStr "Lovelace"]>
        (<["Email" := VStr "ada@example.org"]>
          (<["IsAccountAdministrator" := VBool true]>
            (<["AdministrativeRoleTypes" := VArr []]> ∅))))).

Definition member (status : string) : value :=
  VObj (<["Status" := VStr status]> contact).

Definition bearer : OAuth2Tokens :=
  {| accessToken := VStr "at";
     refreshToken := VUndef;
     accessTokenExpiresAt := None;
     tokenScopes := None |}.

(** An HTTP client that answers every request with [response]. *)
Definition answering (response : FetchResponse)
  : string -> RequestInit -> completion FetchResponse :=
  fun _ _ => Normal response.

Definition ok (payload : value) : FetchResponse :=
  {| data := payload; error := VNull |}.

Definition failed (status : Z) : FetchResponse :=
  {| data := VNull;
     error := VObj (<["status" := VNum (Fin status)]> ∅) |}.


(** Numerals for inputs in which no large number occurs. *)
Definition no_large_numerals : LargeNumerals := fun _ => "large".

Definition noon : Z := 1700000000000.
Definition identity_encoder : string -> string := fun s => s.
Definition no_numeric_strings : string -> number := fun _ => NaN.

End Fixtures.

(** ** Vocabulary for the rest of the adapter's behaviour *)

Module Shapes.
Import JS WildApricot.

(** A value that is neither an array nor an object. *)
Definition primitive (v : value) : bool :=
  match v with
  | VArr _ | VObj _ => false
  | _ => true
  end.

(** The same options with [mapProfileToUser] left out. *)
Definition without_mapping (options : WildApricotOptions) : WildApricotOptions :=
  {| clientId := clientId options;
     clientSecret := clientSecret options;
     siteName := siteName options;
     accountId := accountId options;
     redirectURI := redirectURI options;
     scopes := scopes options;
     mapProfileToUser := None |}.

(** Number of occurrences of the code unit [c] in [s]. *)
Fixpoint occurrences (c : ascii) (s : string) : nat :=
  match s with
  | EmptyString => O
  | String d rest =>
      if Ascii.eqb d c then S (occurrences c rest) else occurrences c rest
  end.

(** The property names the adapter itself writes into the user. *)
Definition default_keys : gset string :=
  {[ "id"; "name"; "email"; "emailVerified"; "image";
     "membershipStatus"; "membershipLevel"; "isActiveMember"; "isAdmin" ]}.

(** The user built from a payload that has none of the fields read. *)
Definition blank_user : gmap string value :=
  <["isAdmin" := VUndef]>
    (<["isActiveMember" := VBool false]>
      (<["membershipLevel" := VNull]>
        (<["membershipStatus" := VStr "NoMembership"]>
          (<["image" := VNull]>
            (<["emailVerified" := VBool true]>
              (<["email" := VUndef]>
                (<["name" := VStr "undefined undefined"]>
                  (<["id" := VStr "undefined"]> ∅)))))))).

End Shapes.

(** ** More concrete inputs *)

Module Samples.
Import JS WildApricot Fixtures.

(** [club] with a mapping function that returns [returned], whatever it is. *)
Definition club_returning (returned : value) : WildApricotOptions :=
  {| clientId := "client";
     clientSecret := "secret";
     siteName := Some "myclub";
     accountId := "1234";
     redirectURI := None;
     scopes := None;
     mapProfileToUser :=
       Some (fun _ => Normal {| returned := returned;
                                profile_after := None;
                                Email_after := None |}) |}.

(** [club] with a mapping function that sets [Status] of the profile it is
    given and returns an empty object. *)
Definition club_setting_status (status : string) : WildApricotOptions :=
  {| clientId := "client";
     clientSecret := "secret";
     siteName := Some "myclub";
     accountId := "1234";
     redirectURI := None;
     scopes := None;
     mapProfileToUser :=
       Some (fun profile =>
               Normal {| returned := VObj ∅;
                         profile_after :=
                           Some (VObj (<["Status" := VStr status]> (own_props profile)));
                         Email_after := None |}) |}.

(** [club] with a mapping function that throws [thrown]. *)
Definition club_throwing (thrown : value) : WildApricotOptions :=
  {| clientId := "client";
     clientSecret := "secret";
     siteName := Some "myclub";
     accountId := "1234";
     redirectURI := None;
     scopes := None;
     mapProfileToUser := Some (fun _ => Throw (Thrown thrown)) |}.

(** A contact with a membership level. *)
Definition gold_member : value :=
  VObj (<["MembershipLevel" :=
            VObj (<["Id" := VNum (Fin 7)]> (<["Name" := VStr "Gold"]> ∅))]>
          (<["Status" := VStr "Active"]> contact)).

(** A contact whose [Id] is [id]. *)
Definition contact_with_id (id : value) : value :=
  VObj (<["Id" := id]> contact).

(** An HTTP client that knows one URL only. *)
Definition answering_at (url : string) (response : FetchResponse)
  : string -> RequestInit -> completion FetchResponse :=
  fun requested _ =>
    if String.eqb requested url then Normal response else Throw TypeError.

(** A token response with the given [expires_in] and [scope]. *)
Definition token_response (expires_in scope : value) : FetchResponse :=
  ok (VObj (<["access_token" := VStr "new-at"]>
             (<["refresh_token" := VStr "new-rt"]>
               (<["expires_in" := expires_in]>
                 (<["scope" := scope]> ∅))))).

End Samples.

(** ** Facts about the JavaScript fragment *)

Module JSFacts.
Import JS Observations.

Lemma bind_normal {A B} (f : A -> completion B) (a : A) :
  (Normal a ≫= f) = f a.
Proof. reflexivity. Qed.

Lemma bind_throw {A B} (f : A -> completion B) (e : exn) :
  (Throw e ≫= f) = Throw e.
Proof. reflexivity. Qed.

Ltac run_bind := repeat (rewrite bind_normal || rewrite bind_throw).

Lemma truthy_not_nullish v : truthy v = true -> nullish v = false.
Proof. by destruct v. Qed.

Lemma get_prop_field v k : nullish v = false -> get_prop v k = Normal (field v k).
Proof. by destruct v. Qed.

Lemma get_prop_opt_field v k : get_prop_opt v k = Normal (field v k).
Proof. by destruct v. Qed.



Section Numerals.
Context `{LargeNumerals}.



Example String_42 : ToString (VNum (Fin 42)) = Normal "42".
Proof. reflexivity. Qed.

Example String_negative : ToString (VNum (Fin (-7))) = Normal "-7".
Proof. reflexivity. Qed.

Example String_array :
  ToString (VArr [VNum (Fin 1); VNull; VArr [VStr "x"; VBool true]])
  = Normal "1,,x,true".
Proof. reflexivity. Qed.

End Numerals.




Example split_double_space : split " " "a b  c" = ["a"; "b"; EmptyString; "c"].
Proof. reflexivity. Qed.

Example split_empty : split " " EmptyString = [EmptyString].
Proof. reflexivity. Qed.

Lemma same_value_zero_spec s v : same_value_zero s v = true <-> v = VStr s.
Proof.
  destruct v; simpl; try (split; [discriminate|congruence]).
  rewrite String.eqb_eq. split; congruence.
Qed.

Lemma includes_spec l v : includes l v = true <-> v ∈ map VStr l.
Proof.
  unfold includes. rewrite existsb_exists, list_elem_of_In, in_map_iff.
  split; intros (s & H1 & H2); exists s.
  - apply same_value_zero_spec in H2. by split.
  - split; [done|]. by apply same_value_zero_spec.
Qed.

Lemma after_call_truthy before after :
  truthy before = true -> truthy (after_call before after) = true.
Proof. by destruct before as [| | | | | |], after as [[| | | | | |]|]. Qed.

Lemma after_call_primitive before after :
  (forall l, before <> VArr l) -> (forall m, before <> VObj m) ->
  after_call before after = before.
Proof.
  intros Harr Hobj. destruct before as [| | | | |l|m]; try done.
  - by destruct (Harr l).
  - by destruct (Hobj m).
Qed.

End JSFacts.

(** ** Properties of the adapter *)

Module Properties.
Import JS WildApricot Observations JSFacts.

Section Provider.
Context `{LargeNumerals}.
Variable betterFetch : string -> RequestInit -> completion FetchResponse.
Variable Date_now : Z.
Variable base64 : string -> string.
Variable StringToNumber : string -> number.
Variable options : WildApricotOptions.

(** The default fields of a truthy profile, spelled out. *)
Lemma default_fields_fetched profile base :
  truthy profile = true ->
  default_fields profile base
  = Normal (<["isAdmin" := field profile "IsAccountAdministrator"]>
             (<["isActiveMember" := VBool (isActiveMember (field profile "Status"))]>
               (<["membershipLevel" :=
                    coalesce (field (field profile "MembershipLevel") "Name") VNull]>
                 (<["membershipStatus" :=
                      coalesce (field profile "Status") (VStr "NoMembership")]>
                   base)))).
Proof.
  intros Hp%truthy_not_nullish. unfold default_fields.
  rewrite !(get_prop_field profile) by done. run_bind.
  rewrite get_prop_opt_field. run_bind.
  unfold spread, own_props. by rewrite (right_id_L ∅ (∪)).
Qed.

Lemma baseUser_fetched profile base :
  truthy profile = true ->
  baseUser profile = Normal base ->
  exists id first last,
    ToString (field profile "Id") = Normal id /\
    ToString (field profile "FirstName") = Normal first /\
    ToString (field profile "LastName") = Normal last /\
    base = <["image" := VNull]>
             (<["emailVerified" := VBool true]>
               (<["email" := field profile "Email"]>
                 (<["name" := VStr (first +:+ " " +:+ last)]>
                   (<["id" := VStr id]> ∅)))).
Proof.
  intros Hp%truthy_not_nullish. unfold baseUser.
  rewrite !(get_prop_field profile) by done. run_bind.
  destruct (ToString (field profile "Id")) as [id|]; run_bind; [|done].
  destruct (ToString (field profile "FirstName")) as [first|]; run_bind; [|done].
  destruct (ToString (field profile "LastName")) as [last|]; run_bind; [|done].
  intros [= <-]. by exists id, first, last.
Qed.

(** A call that left the profile alone. *)
Lemma profile_then_unchanged profile call :
  profile_after call = None -> profile_then profile call = profile.
Proof. unfold profile_then. intros ->. by destruct profile. Qed.

Lemma baseUser_then_unchanged profile base call :
  truthy profile = true ->
  baseUser profile = Normal base ->
  Email_after call = None ->
  baseUser_then base call = base.
Proof.
  intros Hp Hbase Hemail.
  destruct (baseUser_fetched _ _ Hp Hbase) as (id & first & last & _ & _ & _ & ->).
  unfold baseUser_then. rewrite Hemail. apply map_eq. intros k.
  destruct (decide (k = "email")) as [->|Hk]; simplify_map_eq;
    [by destruct (field profile "Email") | done].
Qed.

(** Past its guard [getUserInfo] returns the object [{ user, data }]:
    [data] is the profile as the mapping call left it, [user] the default
    fields computed from that profile, overlaid with the additional ones. *)
Lemma getUserInfo_fetched tokens profile base call :
  fetched betterFetch options tokens profile ->
  baseUser profile = Normal base ->
  call_mapProfileToUser options profile = Normal call ->
  exists defaults,
    default_fields (profile_then profile call) (baseUser_then base call)
    = Normal defaults /\
    getUserInfo betterFetch options tokens
    = Normal (VObj (<["data" := profile_then profile call]>
                     (<["user" := VObj (own_props (additionalFields call) ∪ defaults)]>
                        ∅))).
Proof.
  intros (token & err & Htok & Hfetch & Herr & Hdata) Hbase Hcall.
  assert (truthy (profile_then profile call) = true) as Hthen
    by by apply after_call_truthy.
  eexists. split; [by apply default_fields_fetched|].
  unfold getUserInfo. rewrite Htok, bind_normal, Hfetch, bind_normal.
  simpl. rewrite Herr, Hdata. simpl.
  rewrite Hbase, bind_normal, Hcall, bind_normal.
  unfold user_fields. by rewrite default_fields_fetched.
Qed.

(** The user's property [k], read off the result. *)
Lemma user_field_fetched tokens profile base call k :
  fetched betterFetch options tokens profile ->
  baseUser profile = Normal base ->
  call_mapProfileToUser options profile = Normal call ->
  user_field (getUserInfo betterFetch options tokens) k
  = (own_props (additionalFields call) ∪
     <["isAdmin" := field (profile_then profile call) "IsAccountAdministrator"]>
       (<["isActiveMember" :=
            VBool (isActiveMember (field (profile_then profile call) "Status"))]>
         (<["membershipLevel" :=
              coalesce (field (field (profile_then profile call) "MembershipLevel")
                          "Name") VNull]>
           (<["membershipStatus" :=
                coalesce (field (profile_then profile call) "Status")
                  (VStr "NoMembership")]>
             (baseUser_then base call))))) !! k.
Proof.
  intros Hf Hbase Hcall.
  destruct (getUserInfo_fetched _ _ _ _ Hf Hbase Hcall) as (defaults & Hd & ->).
  destruct Hf as (_ & _ & _ & _ & _ & Hp).
  rewrite default_fields_fetched in Hd by by apply after_call_truthy.
  injection Hd as <-. reflexivity.
Qed.

Lemma isActiveMember_spec status :
  isActiveMember status = true <-> active_status status.
Proof.
  unfold isActiveMember, active_status. rewrite includes_spec. simpl.
  rewrite !elem_of_cons, elem_of_nil. tauto.
Qed.

(** C1.  Whenever the profile request of [getUserInfo] resolves with a
    truthy [error] or with a falsy [data], the call completes normally with
    [null]: nothing is thrown and no user object is built. *)
Theorem getUserInfo_failure_returns_null tokens token userInfo :
  ToString (accessToken tokens) = Normal token ->
  betterFetch (profile_url options) (profile_request token) = Normal userInfo ->
  truthy (error userInfo) = true \/ truthy (data userInfo) = false ->
  getUserInfo betterFetch options tokens = Normal VNull.
Proof.
  intros Htok Hfetch Hfail. unfold getUserInfo.
  rewrite Htok, bind_normal, Hfetch, bind_normal.
  destruct Hfail as [-> | ->]; [done|]. by rewrite orb_true_r.
Qed.

(** C2.  Whenever the token endpoint answers [refreshAccessToken] with a
    truthy [error], whatever that error and the rest of the response are,
    the call throws the API error with status [BAD_REQUEST] and message
    ["Failed to refresh access token"]; it returns no token set. *)
Theorem refreshAccessToken_error_is_bad_request refresh_token response :
  betterFetch (WA_BASE_URL +:+ "/auth/token")
    (refresh_request base64 options refresh_token) = Normal response ->
  truthy (error response) = true ->
  refreshAccessToken betterFetch Date_now base64 StringToNumber options
    refresh_token
  = Throw (APIError "BAD_REQUEST" "Failed to refresh access token").
Proof.
  intros Hfetch Herr. unfold refreshAccessToken.
  by rewrite Hfetch, bind_normal, Herr.
Qed.


(** C4, amended.  For every profile that [getUserInfo] fetched, when no
    mapping function is configured or the configured one returns no
    [isActiveMember] key, the user's [isActiveMember] is a boolean that is
    true exactly when the [Status] of the profile, read after the mapping
    function has run, is ["Active"], ["PendingRenewal"] or
    ["PendingLevelChange"]; for every other [Status], an absent one
    included, it is false.  The mapping function receives the profile
    object itself; when it leaves the object alone, and when there is
    none, that [Status] is the fetched one. *)
Theorem isActiveMember_default tokens profile base call :
  fetched betterFetch options tokens profile ->
  baseUser profile = Normal base ->
  call_mapProfileToUser options profile = Normal call ->
  own_props (additionalFields call) !! "isActiveMember" = None ->
  exists active,
    user_field (getUserInfo betterFetch options tokens) "isActiveMember"
    = Some (VBool active) /\
    (active = true <->
     active_status (field (profile_then profile call) "Status")) /\
    (profile_after call = None ->
     (active = true <-> active_status (field profile "Status"))).
Proof.
  intros Hf Hbase Hcall Hkey.
  eexists. split; [|split].
  - rewrite (user_field_fetched _ _ _ _ _ Hf Hbase Hcall).
    rewrite lookup_union_r by done. by simplify_map_eq.
  - apply isActiveMember_spec.
  - intros Hsame. rewrite <- (profile_then_unchanged profile call Hsame) at 2.
    apply isActiveMember_spec.
Qed.

(** C5.  For every fetched profile: every key/value pair of the object the
    configured mapping function returns is a key/value pair of the user
    (it wins over the default of the same name); every key the mapping
    function does not return has the value the default fields give it; and
    with no mapping function configured the user is the default fields.
    The default fields are the ones the adapter computes, from the profile
    as it is when the adapter reads it: the fetched profile when there is
    no mapping function or it leaves the profile alone. *)
Theorem mapping_overrides_defaults tokens profile base call :
  fetched betterFetch options tokens profile ->
  baseUser profile = Normal base ->
  call_mapProfileToUser options profile = Normal call ->
  exists defaults,
    default_fields (profile_then profile call) (baseUser_then base call)
    = Normal defaults /\
    (forall fields,
       returned call = VObj fields ->
       (forall k v, fields !! k = Some v ->
          user_field (getUserInfo betterFetch options tokens) k = Some v) /\
       (forall k, fields !! k = None ->
          user_field (getUserInfo betterFetch options tokens) k
          = defaults !! k)) /\
    (mapProfileToUser options = None ->
       default_fields profile base = Normal defaults /\
       forall k, user_field (getUserInfo betterFetch options tokens) k
                 = defaults !! k) /\
    (profile_after call = None -> Email_after call = None ->
       default_fields profile base = Normal defaults).
Proof.
  intros Hf Hbase Hcall.
  pose proof Hf as (_ & _ & _ & _ & _ & Hp).
  assert (forall k, user_field (getUserInfo betterFetch options tokens) k
                    = _ !! k) as Hfield
    by (intros k; apply (user_field_fetched _ _ _ _ k Hf Hbase Hcall)).
  assert (profile_after call = None -> Email_after call = None ->
          default_fields profile base
          = default_fields (profile_then profile call) (baseUser_then base call))
    as Hsame.
  { intros H1 H2. by rewrite (profile_then_unchanged _ _ H1),
      (baseUser_then_unchanged _ _ _ Hp Hbase H2). }
  eexists. split; [by apply default_fields_fetched, after_call_truthy|].
  split; [|split].
  - intros fields Hret. unfold additionalFields in Hfield.
    rewrite Hret in Hfield. simpl in Hfield. split.
    + intros k v Hk. rewrite Hfield. by apply lookup_union_Some_l.
    + intros k Hk. rewrite Hfield. by apply lookup_union_r.
  - intros Hnone. unfold call_mapProfileToUser in Hcall.
    rewrite Hnone in Hcall. injection Hcall as <-. split.
    + rewrite Hsame by done.
      by apply default_fields_fetched, after_call_truthy.
    + intros k. rewrite Hfield. simpl. by rewrite (left_id_L ∅ (∪)).
  - intros H1 H2. rewrite (Hsame H1 H2).
    by apply default_fields_fetched, after_call_truthy.
Qed.

(** C6, amended.  For every fetched profile, with [Status] and
    [MembershipLevel] read after the mapping function has run (the fetched
    ones when it leaves the profile alone or there is none): when the
    mapping function returns no [membershipStatus] key, the user's
    [membershipStatus] is ["NoMembership"] if [Status] is [undefined] or
    [null], and is the [Status] itself otherwise (the empty string and the
    other falsy values are kept); when the mapping function returns no
    [membershipLevel] key and the profile has no [MembershipLevel] object,
    the user's [membershipLevel] is [null]. *)
Theorem membership_defaults tokens profile base call :
  fetched betterFetch options tokens profile ->
  baseUser profile = Normal base ->
  call_mapProfileToUser options profile = Normal call ->
  (own_props (additionalFields call) !! "membershipStatus" = None ->
     (nullish (field (profile_then profile call) "Status") = true ->
        user_field (getUserInfo betterFetch options tokens) "membershipStatus"
        = Some (VStr "NoMembership")) /\
     (nullish (field (profile_then profile call) "Status") = false ->
        user_field (getUserInfo betterFetch options tokens) "membershipStatus"
        = Some (field (profile_then profile call) "Status"))) /\
  (own_props (additionalFields call) !! "membershipLevel" = None ->
     (forall level,
        field (profile_then profile call) "MembershipLevel" <> VObj level) ->
     user_field (getUserInfo betterFetch options tokens) "membershipLevel"
     = Some VNull) /\
  (profile_after call = None -> profile_then profile call = profile).
Proof.
  intros Hf Hbase Hcall. split; [|split].
  - intros Hkey.
    split; intros Hs; rewrite (user_field_fetched _ _ _ _ _ Hf Hbase Hcall);
      rewrite lookup_union_r by done; simplify_map_eq;
      unfold coalesce; by rewrite Hs.
  - intros Hkey Hlevel. rewrite (user_field_fetched _ _ _ _ _ Hf Hbase Hcall).
    rewrite lookup_union_r by done. simplify_map_eq.
    destruct (field (profile_then profile call) "MembershipLevel") eqn:E;
      try done.
    by destruct (Hlevel m).
  - apply profile_then_unchanged.
Qed.


(** C8.  [createAuthorizationURL] calls the shared helper with an
    authorization endpoint made of a host and the fixed path
    [/sys/login/OAuthLogin]: the host is [https://{siteName}.wildapricot.org]
    when [siteName] is set (a non-empty string, which is what the code
    tests), and [https://www.wildapricot.org] when it is not set. *)
Theorem authorization_endpoint state redirect :
  exists request,
    (forall (AuthURL : Type) (helper : AuthorizationURLRequest -> AuthURL),
       createAuthorizationURL helper options state redirect = helper request) /\
    (forall name, siteName options = Some name -> name <> EmptyString ->
       authorizationEndpoint request
       = ("https://" +:+ name +:+ ".wildapricot.org") +:+ "/sys/login/OAuthLogin") /\
    (siteName options = None \/ siteName options = Some EmptyString ->
       authorizationEndpoint request
       = "https://www.wildapricot.org" +:+ "/sys/login/OAuthLogin").
Proof.
  exists (authorization_request options state redirect).
  split; [done|]. simpl. unfold WA_SITE_URL. split.
  - intros name -> Hne. by destruct name.
  - by intros [-> | ->].
Qed.

(** C9.  [createAuthorizationURL] passes to the shared helper the configured
    scope list as it is, same elements in the same order, whenever one is
    configured (the empty list included), and the one-element list
    [["contacts_me"]] when none is. *)
Theorem authorization_scopes state redirect :
  exists request,
    (forall (AuthURL : Type) (helper : AuthorizationURLRequest -> AuthURL),
       createAuthorizationURL helper options state redirect = helper request) /\
    (forall l, scopes options = Some l -> au_scopes request = l) /\
    (scopes options = None -> au_scopes request = ["contacts_me"]).
Proof.
  exists (authorization_request options state redirect).
  split; [done|]. simpl. unfold effective_scopes. split.
  - by intros l ->.
  - by intros ->.
Qed.

(** C10, amended.  The object returned by the mapping function is merged
    last, so it reaches the base fields too: a returned [id], [name],
    [email], [emailVerified] or [image] is the user's.  A base field the
    mapping function does not return keeps its [baseUser] value ([email]
    being the [Email] value in the state the call left it): in particular
    [emailVerified] is [true] and [image] is [null] whenever the mapping
    function returns no such key; when it returns one, the field has the
    returned value, whatever it is. *)
Theorem mapping_replaces_base_fields tokens profile base call fields :
  fetched betterFetch options tokens profile ->
  baseUser profile = Normal base ->
  call_mapProfileToUser options profile = Normal call ->
  returned call = VObj fields ->
  (forall k v, k ∈ ["id"; "name"; "email"; "emailVerified"; "image"] ->
     fields !! k = Some v ->
     user_field (getUserInfo betterFetch options tokens) k = Some v) /\
  (forall k, k ∈ ["id"; "name"; "emailVerified"; "image"] ->
     fields !! k = None ->
     user_field (getUserInfo betterFetch options tokens) k = base !! k) /\
  (fields !! "email" = None ->
     user_field (getUserInfo betterFetch options tokens) "email"
     = Some (after_call (field profile "Email") (Email_after call))) /\
  (fields !! "emailVerified" = None ->
     user_field (getUserInfo betterFetch options tokens) "emailVerified"
     = Some (VBool true)) /\
  (fields !! "image" = None ->
     user_field (getUserInfo betterFetch options tokens) "image" = Some VNull).
Proof.
  intros Hf Hbase Hcall Hret.
  pose proof Hf as (_ & _ & _ & _ & _ & Hp).
  assert (forall k, user_field (getUserInfo betterFetch options tokens) k
                    = _ !! k) as Hfield
    by (intros k; apply (user_field_fetched _ _ _ _ k Hf Hbase Hcall)).
  unfold additionalFields in Hfield. rewrite Hret in Hfield. simpl in Hfield.
  destruct (baseUser_fetched _ _ Hp Hbase) as (id & first & last & _ & _ & _ & Hb).
  repeat split.
  - intros k v _ Hk. rewrite Hfield. by apply lookup_union_Some_l.
  - intros k Hin Hk. rewrite Hfield, lookup_union_r by done.
    rewrite !elem_of_cons, elem_of_nil in Hin. unfold baseUser_then.
    destruct Hin as [->|[->|[->|[->|[]]]]]; by simplify_map_eq.
  - intros Hk. rewrite Hfield, lookup_union_r by done.
    subst base. unfold baseUser_then. by simplify_map_eq.
  - intros Hk. rewrite Hfield, lookup_union_r by done.
    subst base. unfold baseUser_then. by simplify_map_eq.
  - intros Hk. rewrite Hfield, lookup_union_r by done.
    subst base. unfold baseUser_then. by simplify_map_eq.
Qed.

End Provider.

(** *** The theorems at concrete inputs *)

Import Fixtures Samples.

#[local] Existing Instance no_large_numerals.

Lemma fetched_member options status :
  fetched (answering (ok (member status))) options bearer (member status).
Proof. exists "at", VNull. repeat split. Qed.

Example member_base status :
  baseUser (member status)
  = Normal (<["image" := VNull]>
             (<["emailVerified" := VBool true]>
               (<["email" := VStr "ada@example.org"]>
                 (<["name" := VStr "Ada Lovelace"]>
                   (<["id" := VStr "42"]> ∅))))).
Proof. reflexivity. Qed.

Example contact_base :
  baseUser (VObj contact)
  = Normal (<["image" := VNull]>
             (<["emailVerified" := VBool true]>
               (<["email" := VStr "ada@example.org"]>
                 (<["name" := VStr "Ada Lovelace"]>
                   (<["id" := VStr "42"]> ∅))))).
Proof. reflexivity. Qed.

Lemma getUserInfo_failure_returns_null_witness :
  truthy (error (failed 401)) = true /\
  getUserInfo (answering (failed 401)) club bearer = Normal VNull.
Proof.
  split; [reflexivity|].
  apply (getUserInfo_failure_returns_null
           (answering (failed 401)) club bearer "at" (failed 401));
    [reflexivity | reflexivity | left; reflexivity].
Defined.

Lemma refreshAccessToken_error_is_bad_request_witness :
  truthy (error (failed 400)) = true /\
  refreshAccessToken (answering (failed 400)) noon identity_encoder
    no_numeric_strings club "old-rt"
  = Throw (APIError "BAD_REQUEST" "Failed to refresh access token").
Proof.
  split; [reflexivity|].
  apply (refreshAccessToken_error_is_bad_request
           (answering (failed 400)) noon identity_encoder no_numeric_strings
           club "old-rt" (failed 400));
    reflexivity.
Defined.



Lemma isActiveMember_default_witness :
  field (member "Lapsed") "Status" = VStr "Lapsed" /\
  exists active,
    user_field
      (getUserInfo (answering (ok (member "Lapsed")))
         (club_setting_status "PendingRenewal") bearer)
      "isActiveMember"
    = Some (VBool active) /\
    active = true.
Proof.
  split; [reflexivity|].
  edestruct (isActiveMember_default (answering (ok (member "Lapsed")))
               (club_setting_status "PendingRenewal") bearer (member "Lapsed"))
    as (active & Hfield & Hactive & _).
  - apply fetched_member.
  - apply member_base.
  - reflexivity.
  - reflexivity.
  - exists active. split; [exact Hfield|].
    apply Hactive. right. left. reflexivity.
Defined.

(** C4, as stated, fails: with [mapProfileToUser: () => ({ isActiveMember:
    true })] a profile whose [Status] is ["Lapsed"] gives a user with
    [isActiveMember: true]. *)
Lemma isActiveMember_overridden_for_lapsed :
  field (member "Lapsed") "Status" = VStr "Lapsed" /\
  ~ active_status (VStr "Lapsed") /\
  user_field
    (getUserInfo (answering (ok (member "Lapsed")))
       (club_mapping {[ "isActiveMember" := VBool true ]}) bearer)
    "isActiveMember"
  = Some (VBool true).
Proof.
  split; [reflexivity|]. split; [|reflexivity].
  intros [H | [H | H]]; discriminate H.
Qed.

Lemma mapping_overrides_defaults_witness :
  field (member "Active") "IsAccountAdministrator" = VBool true /\
  user_field
    (getUserInfo (answering (ok (member "Active")))
       (club_mapping {[ "isAdmin" := VBool false ]}) bearer) "isAdmin"
  = Some (VBool false) /\
  user_field
    (getUserInfo (answering (ok (member "Active")))
       (club_mapping {[ "isAdmin" := VBool false ]}) bearer) "isActiveMember"
  = Some (VBool true) /\
  user_field
    (getUserInfo (answering (ok (member "Active")))
       (club_mapping {[ "isAdmin" := VBool false ]}) bearer) "membershipStatus"
  = Some (VStr "Active").
Proof.
  split; [reflexivity|].
  edestruct (mapping_overrides_defaults
               (answering (ok (member "Active")))
               (club_mapping {[ "isAdmin" := VBool false ]}) bearer
               (member "Active") _ _
               (fetched_member _ "Active") (member_base "Active") eq_refl)
    as (defaults & Hdefaults & Hmapped & _).
  destruct (Hmapped {[ "isAdmin" := VBool false ]} eq_refl) as (Hwins & Hkeeps).
  injection Hdefaults as <-.
  split; [|split].
  - apply Hwins. reflexivity.
  - rewrite Hkeeps; reflexivity.
  - rewrite Hkeeps; reflexivity.
Defined.

Lemma membership_defaults_witness :
  nullish (field (VObj contact) "Status") = true /\
  user_field (getUserInfo (answering (ok (VObj contact))) club bearer)
    "membershipStatus"
  = Some (VStr "NoMembership") /\
  user_field (getUserInfo (answering (ok (VObj contact))) club bearer)
    "membershipLevel"
  = Some VNull.
Proof.
  assert (fetched (answering (ok (VObj contact))) club bearer (VObj contact))
    as Hfetched.
  { exists "at", VNull. repeat split. }
  split; [reflexivity|].
  edestruct (membership_defaults (answering (ok (VObj contact))) club bearer
               (VObj contact) _ _ Hfetched contact_base eq_refl)
    as (Hstatus & Hlevel & _).
  split.
  - apply Hstatus; reflexivity.
  - apply Hlevel; [reflexivity | discriminate].
Defined.

(** C6, as stated, fails: a profile whose [Status] is the empty string, a
    falsy value, gives a user whose [membershipStatus] is the empty string,
    not ["NoMembership"] (no mapping function is configured). *)
Lemma empty_status_is_kept :
  field (member EmptyString) "Status" = VStr EmptyString /\
  truthy (VStr EmptyString) = false /\
  user_field (getUserInfo (answering (ok (member EmptyString))) club bearer)
    "membershipStatus"
  = Some (VStr EmptyString) /\
  VStr EmptyString <> VStr "NoMembership".
Proof. repeat split; discriminate. Qed.



Lemma authorization_endpoint_witness :
  siteName club = Some "myclub" /\
  exists request,
    (forall (AuthURL : Type) (helper : AuthorizationURLRequest -> AuthURL),
       createAuthorizationURL helper club "state" "https://app.example/cb"
       = helper request) /\
    authorizationEndpoint request
    = "https://myclub.wildapricot.org/sys/login/OAuthLogin".
Proof.
  split; [reflexivity|].
  destruct (authorization_endpoint club "state" "https://app.example/cb")
    as (request & Hcall & Hsite & _).
  exists request. split; [exact Hcall|].
  apply (Hsite "myclub"); [reflexivity | discriminate].
Defined.

Lemma authorization_scopes_witness :
  scopes club = None /\
  exists request,
    (forall (AuthURL : Type) (helper : AuthorizationURLRequest -> AuthURL),
       createAuthorizationURL helper club "state" "https://app.example/cb"
       = helper request) /\
    au_scopes request = ["contacts_me"].
Proof.
  split; [reflexivity|].
  destruct (authorization_scopes club "state" "https://app.example/cb")
    as (request & Hcall & _ & Hdefault).
  exists request. split; [exact Hcall|].
  apply Hdefault. reflexivity.
Defined.

Lemma mapping_replaces_base_fields_witness :
  user_field
    (getUserInfo (answering (ok (member "Active")))
       (club_mapping {[ "emailVerified" := VBool false ]}) bearer)
    "emailVerified"
  = Some (VBool false) /\
  user_field
    (getUserInfo (answering (ok (member "Active")))
       (club_mapping {[ "emailVerified" := VBool false ]}) bearer) "image"
  = Some VNull /\
  user_field
    (getUserInfo (answering (ok (member "Active")))
       (club_mapping {[ "emailVerified" := VBool false ]}) bearer) "id"
  = Some (VStr "42").
Proof.
  edestruct (mapping_replaces_base_fields
               (answering (ok (member "Active")))
               (club_mapping {[ "emailVerified" := VBool false ]}) bearer
               (member "Active") _ _ {[ "emailVerified" := VBool false ]}
               (fetched_member _ "Active") (member_base "Active")
               eq_refl eq_refl)
    as (Hwins & Hkeeps & _ & _ & Himage).
  split; [|split].
  - apply Hwins; [|reflexivity]. rewrite !elem_of_cons. tauto.
  - apply Himage. reflexivity.
  - rewrite Hkeeps; [reflexivity | | reflexivity]. rewrite !elem_of_cons. tauto.
Defined.

(** C10, as stated, fails: with a mapping function that returns
    [emailVerified: true] and [image: null], the user's [emailVerified] is
    [true] and its [image] is [null] although the mapping function does
    return those keys. *)
Lemma base_values_returned_by_mapping :
  ({[ "emailVerified" := VBool true; "image" := VNull ]} : gmap string value)
    !! "emailVerified" = Some (VBool true) /\
  ({[ "emailVerified" := VBool true; "image" := VNull ]} : gmap string value)
    !! "image" = Some VNull /\
  user_field
    (getUserInfo (answering (ok (member "Active")))
       (club_mapping {[ "emailVerified" := VBool true; "image" := VNull ]})
       bearer)
    "emailVerified"
  = Some (VBool true) /\
  user_field
    (getUserInfo (answering (ok (member "Active")))
       (club_mapping {[ "emailVerified" := VBool true; "image" := VNull ]})
       bearer)
    "image"
  = Some VNull.
Proof. repeat split. Qed.

End Properties.

(** ** Further behaviour of the adapter *)

Module Behaviour.
Import JS WildApricot Observations Fixtures Shapes Samples JSFacts.

Section Numerals.
Context `{LargeNumerals}.

Lemma ToString_primitive v :
  primitive v = true -> exists s, ToString v = Normal s.
Proof. destruct v as [| |[]| | | |]; try done; by eexists. Qed.

Lemma baseUser_primitive profile :
  truthy profile = true ->
  primitive (field profile "Id") = true ->
  primitive (field profile "FirstName") = true ->
  primitive (field profile "LastName") = true ->
  exists base, baseUser profile = Normal base.
Proof.
  intros Hp%truthy_not_nullish (id & Hid)%ToString_primitive
    (first & Hfirst)%ToString_primitive (last & Hlast)%ToString_primitive.
  unfold baseUser. rewrite !(get_prop_field profile) by done. run_bind.
  rewrite Hid. run_bind. rewrite Hfirst. run_bind. rewrite Hlast. run_bind.
  by eexists.
Qed.

End Numerals.

Lemma append_assoc (a b c : string) : (a +:+ b) +:+ c = a +:+ b +:+ c.
Proof.
  induction a as [|x a IH]; [done|].
  change (String x ((a +:+ b) +:+ c) = String x (a +:+ b +:+ c)).
  by rewrite IH.
Qed.

Lemma length_split sep s : length (split sep s) = S (occurrences sep s).
Proof.
  induction s as [|c r IH]; simpl; [done|].
  destruct (Ascii.eqb c sep); simpl; [by rewrite IH|].
  destruct (split sep r); simpl in *; [done|]. done.
Qed.

Section UserInfo.
Context `{LargeNumerals}.
Variable betterFetch : string -> RequestInit -> completion FetchResponse.
Variable options : WildApricotOptions.

(** X1.  What [getUserInfo] returns for a fetched profile is an object with
    exactly the two properties [user] and [data].  [data] is the profile
    object, in the state the mapping function left it (the fetched payload
    when the function leaves it alone or there is none), whatever the
    function returned.  The property names of [user] are the nine names
    the adapter writes plus the names the mapping function returned: a
    mapping can add and replace properties, never remove one. *)
Theorem getUserInfo_result_shape tokens profile base call :
  fetched betterFetch options tokens profile ->
  baseUser profile = Normal base ->
  call_mapProfileToUser options profile = Normal call ->
  exists result user,
    getUserInfo betterFetch options tokens = Normal (VObj result) /\
    dom result = {[ "user"; "data" ]} /\
    result !! "data" = Some (profile_then profile call) /\
    (profile_after call = None -> result !! "data" = Some profile) /\
    result !! "user" = Some (VObj user) /\
    dom user = default_keys ∪ dom (own_props (additionalFields call)).
Proof.
  intros Hf Hbase Hcall.
  destruct (Properties.getUserInfo_fetched _ _ _ _ _ _ Hf Hbase Hcall)
    as (defaults & Hd & ->).
  pose proof Hf as (_ & _ & _ & _ & _ & Hp).
  rewrite Properties.default_fields_fetched in Hd
    by by apply after_call_truthy.
  injection Hd as <-.
  destruct (Properties.baseUser_fetched _ _ Hp Hbase)
    as (id & first & last & _ & _ & _ & ->).
  eexists _, _. split; [done|].
  split; [|split; [done|split; [|split; [done|]]]].
  - rewrite !dom_insert_L, dom_empty_L. set_solver.
  - intros Hsame. by rewrite Properties.profile_then_unchanged.
  - unfold baseUser_then.
    rewrite dom_union_L, !dom_insert_L, dom_empty_L. unfold default_keys.
    set_solver.
Qed.

(** X2.  A mapping function that returns a falsy value ([undefined],
    [null], [false], [0], [NaN], the empty string) and leaves the profile
    alone changes nothing: [getUserInfo] gives what it gives with no
    mapping function configured. *)
Theorem falsy_mapping_is_no_mapping tokens profile f call :
  fetched betterFetch options tokens profile ->
  mapProfileToUser options = Some f ->
  f profile = Normal call ->
  truthy (returned call) = false ->
  profile_after call = None ->
  Email_after call = None ->
  getUserInfo betterFetch options tokens
  = getUserInfo betterFetch (without_mapping options) tokens.
Proof.
  intros (token & err & Htok & Hfetch & Herr & Hdata) Hmap Hret Hfalsy
    Hprofile Hemail.
  unfold getUserInfo. rewrite Htok. run_bind.
  change (profile_url (without_mapping options)) with (profile_url options).
  rewrite Hfetch. run_bind. simpl. rewrite Herr, Hdata. simpl.
  destruct (baseUser profile) as [base|]; run_bind; [|done].
  unfold call_mapProfileToUser. simpl. rewrite Hmap, Hret. run_bind.
  unfold additionalFields, or_else, profile_then, baseUser_then. simpl.
  by rewrite Hfalsy, Hprofile, Hemail.
Qed.

(** X3.  An exception thrown by the mapping function is not caught: once
    the profile is fetched and [baseUser] is built, [getUserInfo] throws that
    same exception. *)
Theorem mapping_exception_propagates tokens profile base f e :
  fetched betterFetch options tokens profile ->
  baseUser profile = Normal base ->
  mapProfileToUser options = Some f ->
  f profile = Throw e ->
  getUserInfo betterFetch options tokens = Throw e.
Proof.
  intros (token & err & Htok & Hfetch & Herr & Hdata) Hbase Hmap Hthrow.
  unfold getUserInfo. rewrite Htok. run_bind. rewrite Hfetch. run_bind.
  simpl. rewrite Herr, Hdata. simpl. rewrite Hbase. run_bind.
  unfold call_mapProfileToUser. rewrite Hmap, Hthrow. by run_bind.
Qed.

(** X4.  With no mapping function configured, [getUserInfo] does not throw
    once the request has resolved, whatever the response, as long as the
    payload's [Id], [FirstName] and [LastName] are not objects or arrays: it
    returns [null] or an object [{ user, data }] around the payload. *)
Theorem getUserInfo_does_not_throw tokens token response :
  ToString (accessToken tokens) = Normal token ->
  betterFetch (profile_url options) (profile_request token) = Normal response ->
  mapProfileToUser options = None ->
  primitive (field (data response) "Id") = true ->
  primitive (field (data response) "FirstName") = true ->
  primitive (field (data response) "LastName") = true ->
  getUserInfo betterFetch options tokens = Normal VNull \/
  exists user,
    getUserInfo betterFetch options tokens
    = Normal (user_info user (data response)).
Proof.
  intros Htok Hfetch Hnone HId Hfirst Hlast.
  destruct (truthy (error response) || negb (truthy (data response))) eqn:Hguard.
  - left. unfold getUserInfo. rewrite Htok. run_bind. rewrite Hfetch. run_bind.
    by rewrite Hguard.
  - right. apply orb_false_iff in Hguard as [Herr Hdata].
    apply negb_false_iff in Hdata.
    destruct (baseUser_primitive _ Hdata HId Hfirst Hlast) as (base & Hbase).
    assert (fetched betterFetch options tokens (data response)) as Hf.
    { exists token, (error response). by destruct response. }
    assert (call_mapProfileToUser options (data response)
            = Normal {| returned := VUndef;
                        profile_after := None;
                        Email_after := None |}) as Hcall.
    { unfold call_mapProfileToUser. by rewrite Hnone. }
    destruct (Properties.getUserInfo_fetched _ _ _ _ _ _ Hf Hbase Hcall)
      as (defaults & _ & ->).
    rewrite Properties.profile_then_unchanged by done.
    by eexists.
Qed.

(** X5.  Unless the mapping function returns a [name], the user's [name] is
    the string form of the fetched [FirstName], one space, the string form
    of the fetched [LastName]: a string name is used as it is, and a
    missing one shows up as the word [undefined]. *)
Theorem name_default tokens profile base call :
  fetched betterFetch options tokens profile ->
  baseUser profile = Normal base ->
  call_mapProfileToUser options profile = Normal call ->
  own_props (additionalFields call) !! "name" = None ->
  exists first last,
    ToString (field profile "FirstName") = Normal first /\
    ToString (field profile "LastName") = Normal last /\
    user_field (getUserInfo betterFetch options tokens) "name"
    = Some (VStr (first +:+ " " +:+ last)) /\
    (forall s, field profile "FirstName" = VStr s -> first = s) /\
    (forall s, field profile "LastName" = VStr s -> last = s) /\
    (field profile "FirstName" = VUndef -> first = "undefined") /\
    (field profile "LastName" = VUndef -> last = "undefined").
Proof.
  intros Hf Hbase Hcall Hkey.
  pose proof Hf as (_ & _ & _ & _ & _ & Hp).
  rewrite (Properties.user_field_fetched _ _ _ _ _ _ _ Hf Hbase Hcall).
  destruct (Properties.baseUser_fetched _ _ Hp Hbase)
    as (id & first & last & _ & Hfirst & Hlast & ->).
  exists first, last. split; [done|]. split; [done|].
  split; [rewrite lookup_union_r by done; unfold baseUser_then;
          by simplify_map_eq|].
  repeat split.
  - intros s Hs. rewrite Hs in Hfirst. by injection Hfirst.
  - intros s Hs. rewrite Hs in Hlast. by injection Hlast.
  - intros Hs. rewrite Hs in Hfirst. by injection Hfirst.
  - intros Hs. rewrite Hs in Hlast. by injection Hlast.
Qed.

(** X6.  Unless the mapping function returns them, the user's [email] and
    [isAdmin] are values found in the profile, without conversion: [email]
    is the fetched [Email] (in the state the mapping call left it, if it is
    an object), [isAdmin] is [IsAccountAdministrator] as read after the
    mapping call (a missing flag gives [undefined], not [false]); when the
    mapping function leaves the profile alone both are the fetched
    values. *)
Theorem email_and_isAdmin_verbatim tokens profile base call :
  fetched betterFetch options tokens profile ->
  baseUser profile = Normal base ->
  call_mapProfileToUser options profile = Normal call ->
  (own_props (additionalFields call) !! "email" = None ->
     user_field (getUserInfo betterFetch options tokens) "email"
     = Some (after_call (field profile "Email") (Email_after call)) /\
     (primitive (field profile "Email") = true \/ Email_after call = None ->
      user_field (getUserInfo betterFetch options tokens) "email"
      = Some (field profile "Email"))) /\
  (own_props (additionalFields call) !! "isAdmin" = None ->
     user_field (getUserInfo betterFetch options tokens) "isAdmin"
     = Some (field (profile_then profile call) "IsAccountAdministrator") /\
     (profile_after call = None ->
      user_field (getUserInfo betterFetch options tokens) "isAdmin"
      = Some (field profile "IsAccountAdministrator"))).
Proof.
  intros Hf Hbase Hcall.
  pose proof Hf as (_ & _ & _ & _ & _ & Hp).
  assert (forall k, user_field (getUserInfo betterFetch options tokens) k
                    = _ !! k) as Hfield
    by (intros k; apply (Properties.user_field_fetched _ _ _ _ _ _ k Hf Hbase Hcall)).
  destruct (Properties.baseUser_fetched _ _ Hp Hbase)
    as (id & first & last & _ & _ & _ & ->).
  split; intros Hkey.
  - assert (user_field (getUserInfo betterFetch options tokens) "email"
            = Some (after_call (field profile "Email") (Email_after call)))
      as Hemail.
    { rewrite Hfield, lookup_union_r by done. unfold baseUser_then.
      by simplify_map_eq. }
    split; [done|]. intros Hsame. rewrite Hemail. f_equal.
    destruct Hsame as [Hprim | ->].
    + by destruct (field profile "Email").
    + by destruct (field profile "Email").
  - assert (user_field (getUserInfo betterFetch options tokens) "isAdmin"
            = Some (field (profile_then profile call) "IsAccountAdministrator"))
      as Hadmin.
    { rewrite Hfield, lookup_union_r by done. by simplify_map_eq. }
    split; [done|]. intros Hsame.
    by rewrite Hadmin, Properties.profile_then_unchanged.
Qed.

(** X7.  When the profile, as the mapping call left it, has a
    [MembershipLevel] object and the mapping function returns no
    [membershipLevel], the user's [membershipLevel] is that object's [Name]
    if it has one that is neither [null] nor [undefined], and [null]
    otherwise. *)
Theorem membershipLevel_is_level_name tokens profile base call level :
  fetched betterFetch options tokens profile ->
  baseUser profile = Normal base ->
  call_mapProfileToUser options profile = Normal call ->
  own_props (additionalFields call) !! "membershipLevel" = None ->
  field (profile_then profile call) "MembershipLevel" = VObj level ->
  (forall name, level !! "Name" = Some name -> nullish name = false ->
     user_field (getUserInfo betterFetch options tokens) "membershipLevel"
     = Some name) /\
  (level !! "Name" = None \/ level !! "Name" = Some VNull ->
     user_field (getUserInfo betterFetch options tokens) "membershipLevel"
     = Some VNull).
Proof.
  intros Hf Hbase Hcall Hkey Hlevel.
  rewrite (Properties.user_field_fetched _ _ _ _ _ _ _ Hf Hbase Hcall).
  rewrite lookup_union_r by done. simplify_map_eq. rewrite Hlevel. simpl.
  split; [intros name Hname Hnn | intros Hname].
  - rewrite Hname. simpl. unfold coalesce. by rewrite Hnn.
  - by destruct Hname as [-> | ->].
Qed.

(** X8.  The payload is not validated: a truthy payload without [Id],
    [FirstName], [LastName], [Email], [Status], [MembershipLevel] and
    [IsAccountAdministrator] (an empty object, an object with other
    properties only, a non-empty string, a number, ...) and no mapping
    function gives [{ user, data }] with the payload as [data] and the user
    [{ id: "undefined", name: "undefined undefined", email: undefined,
    emailVerified: true, image: null, membershipStatus: "NoMembership",
    membershipLevel: null, isActiveMember: false, isAdmin: undefined }]. *)
Theorem blank_payload_gives_blank_user tokens profile :
  fetched betterFetch options tokens profile ->
  mapProfileToUser options = None ->
  field profile "Id" = VUndef ->
  field profile "FirstName" = VUndef ->
  field profile "LastName" = VUndef ->
  field profile "Email" = VUndef ->
  field profile "Status" = VUndef ->
  field profile "MembershipLevel" = VUndef ->
  field profile "IsAccountAdministrator" = VUndef ->
  getUserInfo betterFetch options tokens
  = Normal (VObj (<["data" := profile]> (<["user" := VObj blank_user]> ∅))).
Proof.
  intros Hf Hnone HId Hfirst Hlast Hemail Hstatus Hlevel Hadmin.
  pose proof Hf as (_ & _ & _ & _ & _ & Hp).
  assert (baseUser profile
          = Normal (<["image" := VNull]>
                     (<["emailVerified" := VBool true]>
                       (<["email" := VUndef]>
                         (<["name" := VStr "undefined undefined"]>
                           (<["id" := VStr "undefined"]> ∅)))))) as Hbase.
  { unfold baseUser.
    rewrite !(get_prop_field profile) by by apply truthy_not_nullish.
    rewrite HId, Hfirst, Hlast, Hemail. by run_bind. }
  assert (call_mapProfileToUser options profile
          = Normal {| returned := VUndef;
                      profile_after := None;
                      Email_after := None |}) as Hcall.
  { unfold call_mapProfileToUser. by rewrite Hnone. }
  destruct (Properties.getUserInfo_fetched _ _ _ _ _ _ Hf Hbase Hcall)
    as (defaults & Hd & ->).
  rewrite Properties.profile_then_unchanged in * by done.
  rewrite Properties.default_fields_fetched in Hd by done. injection Hd as <-.
  rewrite Hstatus, Hlevel, Hadmin. simpl.
  rewrite (left_id_L ∅ (∪)). reflexivity.
Qed.

(** X9.  When the fetched profile's [Id] is a string, the user's [id] is
    that string unchanged (so an empty [Id] gives an empty [id]), unless
    the mapping function returns an [id]. *)
Theorem string_id_is_kept tokens profile base call s :
  fetched betterFetch options tokens profile ->
  field profile "Id" = VStr s ->
  baseUser profile = Normal base ->
  call_mapProfileToUser options profile = Normal call ->
  own_props (additionalFields call) !! "id" = None ->
  user_field (getUserInfo betterFetch options tokens) "id" = Some (VStr s).
Proof.
  intros Hf HId Hbase Hcall Hkey.
  pose proof Hf as (_ & _ & _ & _ & _ & Hp).
  rewrite (Properties.user_field_fetched _ _ _ _ _ _ _ Hf Hbase Hcall).
  destruct (Properties.baseUser_fetched _ _ Hp Hbase)
    as (id & first & last & Hid & _ & _ & ->).
  rewrite HId in Hid. injection Hid as <-.
  rewrite lookup_union_r by done. unfold baseUser_then. by simplify_map_eq.
Qed.

(** X16.  [getUserInfo] reads the network through one request only: the
    contact [me] of the configured account on [https://api.wildapricot.org],
    with the access token as Bearer credentials and a JSON [Accept] header.
    Two HTTP clients that answer this request alike give the same outcome. *)
Theorem getUserInfo_request tokens token
    (other : string -> RequestInit -> completion FetchResponse) :
  accessToken tokens = VStr token ->
  betterFetch
    ("https://api.wildapricot.org" +:+ "/v2.1/accounts/" +:+ accountId options
       +:+ "/contacts/me")
    {| method := None;
       headers := [("Authorization", "Bearer " +:+ token);
                   ("Accept", "application/json")];
       body := None |}
  = other
      ("https://api.wildapricot.org" +:+ "/v2.1/accounts/" +:+ accountId options
         +:+ "/contacts/me")
      {| method := None;
         headers := [("Authorization", "Bearer " +:+ token);
                     ("Accept", "application/json")];
         body := None |} ->
  getUserInfo betterFetch options tokens = getUserInfo other options tokens.
Proof.
  intros Htok Hsame. unfold getUserInfo, profile_url, profile_request, WA_API_URL.
  rewrite Htok. simpl ToString. run_bind. by rewrite Hsame.
Qed.

End UserInfo.

Section Refresh.
Context `{LargeNumerals}.
Variable betterFetch : string -> RequestInit -> completion FetchResponse.
Variable Date_now : Z.
Variable base64 : string -> string.
Variable StringToNumber : string -> number.
Variable options : WildApricotOptions.

(** Past its guards, [refreshAccessToken] is the expiry computation, then
    the scope split, then the token set. *)
Lemma refreshAccessToken_resolved refresh_token response :
  betterFetch (WA_BASE_URL +:+ "/auth/token")
    (refresh_request base64 options refresh_token) = Normal response ->
  truthy (error response) = false ->
  nullish (data response) = false ->
  refreshAccessToken betterFetch Date_now base64 StringToNumber options
    refresh_token
  = (expiresAt ← expiry Date_now StringToNumber (field (data response) "expires_in");
     scopes' ← split_scope (field (data response) "scope");
     Normal {| accessToken := field (data response) "access_token";
               refreshToken := field (data response) "refresh_token";
               accessTokenExpiresAt := expiresAt;
               tokenScopes := scopes' |}).
Proof.
  intros Hfetch Herr Hdata. unfold refreshAccessToken.
  rewrite Hfetch, bind_normal, Herr.
  rewrite !(get_prop_field (data response)) by done. by run_bind.
Qed.

Lemma expiry_primitive expires_in :
  primitive expires_in = true ->
  exists d, expiry Date_now StringToNumber expires_in = Normal d.
Proof.
  intros Hprim. unfold expiry. destruct (truthy expires_in); [|by eexists].
  destruct expires_in as [| |[]| | | |]; try done; by eexists.
Qed.

(** X10.  A successful refresh response whose [scope] is present but not a
    string (an array of scopes, a number, ...) makes [refreshAccessToken]
    throw a TypeError: only strings have [split]. *)
Theorem refreshAccessToken_scope_not_a_string refresh_token response :
  betterFetch (WA_BASE_URL +:+ "/auth/token")
    (refresh_request base64 options refresh_token) = Normal response ->
  truthy (error response) = false ->
  nullish (data response) = false ->
  primitive (field (data response) "expires_in") = true ->
  nullish (field (data response) "scope") = false ->
  (forall s, field (data response) "scope" <> VStr s) ->
  refreshAccessToken betterFetch Date_now base64 StringToNumber options
    refresh_token = Throw TypeError.
Proof.
  intros Hfetch Herr Hdata Hexp Hnn Hns.
  rewrite (refreshAccessToken_resolved _ _ Hfetch Herr Hdata).
  destruct (expiry_primitive _ Hexp) as (d & ->). run_bind.
  unfold split_scope. rewrite Hnn.
  destruct (field (data response) "scope") eqn:E; try done.
  by destruct (Hns s).
Qed.

(** X11.  A refresh response with neither an error nor data makes
    [refreshAccessToken] throw a TypeError, not the BAD_REQUEST error. *)
Theorem refreshAccessToken_without_data refresh_token response :
  betterFetch (WA_BASE_URL +:+ "/auth/token")
    (refresh_request base64 options refresh_token) = Normal response ->
  truthy (error response) = false ->
  nullish (data response) = true ->
  refreshAccessToken betterFetch Date_now base64 StringToNumber options
    refresh_token = Throw TypeError.
Proof.
  intros Hfetch Herr Hdata. unfold refreshAccessToken.
  rewrite Hfetch, bind_normal, Herr. by destruct (data response).
Qed.

(** X12.  In a successful refresh response a [null] or missing [expires_in]
    and a [null] or missing [scope] give a token set without expiry and
    without scopes; the two tokens are taken over as they are. *)
Theorem refreshAccessToken_null_fields refresh_token response :
  betterFetch (WA_BASE_URL +:+ "/auth/token")
    (refresh_request base64 options refresh_token) = Normal response ->
  truthy (error response) = false ->
  nullish (data response) = false ->
  nullish (field (data response) "expires_in") = true ->
  nullish (field (data response) "scope") = true ->
  refreshAccessToken betterFetch Date_now base64 StringToNumber options
    refresh_token
  = Normal {| accessToken := field (data response) "access_token";
              refreshToken := field (data response) "refresh_token";
              accessTokenExpiresAt := None;
              tokenScopes := None |}.
Proof.
  intros Hfetch Herr Hdata Hexp Hscope.
  rewrite (refreshAccessToken_resolved _ _ Hfetch Herr Hdata).
  unfold expiry, split_scope. rewrite Hscope.
  by destruct (field (data response) "expires_in").
Qed.

(** X13.  When [expires_in] is infinite, or is a non-zero integer that puts
    the expiry beyond the range of [Date] (8.64e15 ms either side of the
    epoch), the token set still has an [accessTokenExpiresAt], and it is an
    invalid date. *)
Theorem refreshAccessToken_expiry_out_of_range refresh_token response n scopes' :
  betterFetch (WA_BASE_URL +:+ "/auth/token")
    (refresh_request base64 options refresh_token) = Normal response ->
  truthy (error response) = false ->
  nullish (data response) = false ->
  field (data response) "expires_in" = VNum n ->
  split_scope (field (data response) "scope") = Normal scopes' ->
  (exists negative, n = Infinity negative) \/
  (exists z, n = Fin z /\ z <> 0 /\ max_time < Z.abs (Date_now + z * 1000)) ->
  exists tokens,
    refreshAccessToken betterFetch Date_now base64 StringToNumber options
      refresh_token = Normal tokens /\
    accessTokenExpiresAt tokens = Some {| time_value := NaN |}.
Proof.
  intros Hfetch Herr Hdata Hexp Hscope Hrange.
  rewrite (refreshAccessToken_resolved _ _ Hfetch Herr Hdata).
  rewrite Hexp, Hscope. unfold expiry.
  destruct Hrange as [[negative ->] | (z & -> & Hz0 & Hz)]; simpl.
  - run_bind. eexists. split; [done|]. by destruct negative.
  - rewrite (proj2 (Z.eqb_neq _ _) Hz0). simpl. run_bind.
    eexists. split; [done|]. simpl. unfold new_Date, TimeClip.
    by rewrite (proj2 (Z.leb_gt _ _) Hz).
Qed.

(** X14.  When [scope] is a string, the token set has one scope per space
    plus one: the list is never empty, and an empty [scope] string gives the
    single empty scope. *)
Theorem refreshAccessToken_scope_count refresh_token response s :
  betterFetch (WA_BASE_URL +:+ "/auth/token")
    (refresh_request base64 options refresh_token) = Normal response ->
  truthy (error response) = false ->
  nullish (data response) = false ->
  primitive (field (data response) "expires_in") = true ->
  field (data response) "scope" = VStr s ->
  exists tokens pieces,
    refreshAccessToken betterFetch Date_now base64 StringToNumber options
      refresh_token = Normal tokens /\
    tokenScopes tokens = Some pieces /\
    length pieces = S (occurrences " " s).
Proof.
  intros Hfetch Herr Hdata Hexp Hscope.
  rewrite (refreshAccessToken_resolved _ _ Hfetch Herr Hdata).
  destruct (expiry_primitive _ Hexp) as (d & ->). rewrite Hscope. run_bind.
  simpl. run_bind. eexists _, _. split; [done|]. split; [done|].
  apply length_split.
Qed.

(** X15.  [refreshAccessToken] reads the network through one request only:
    a POST to [https://oauth.wildapricot.org/auth/token] with a form
    content type, Basic credentials made of [clientId:clientSecret], and the
    body [grant_type=refresh_token], [refresh_token].  Two HTTP clients that
    answer this request alike give the same outcome; the site name and the
    account id play no part. *)
Theorem refreshAccessToken_request refresh_token
    (other : string -> RequestInit -> completion FetchResponse) :
  betterFetch "https://oauth.wildapricot.org/auth/token"
    {| method := Some "POST";
       headers :=
         [("Content-Type", "application/x-www-form-urlencoded");
          ("Authorization",
           "Basic " +:+ base64 (clientId options +:+ ":" +:+ clientSecret options))];
       body := Some [("grant_type", "refresh_token");
                     ("refresh_token", refresh_token)] |}
  = other "https://oauth.wildapricot.org/auth/token"
      {| method := Some "POST";
         headers :=
           [("Content-Type", "application/x-www-form-urlencoded");
            ("Authorization",
             "Basic " +:+ base64 (clientId options +:+ ":" +:+ clientSecret options))];
         body := Some [("grant_type", "refresh_token");
                       ("refresh_token", refresh_token)] |} ->
  refreshAccessToken betterFetch Date_now base64 StringToNumber options
    refresh_token
  = refreshAccessToken other Date_now base64 StringToNumber options
      refresh_token.
Proof.
  intros Hsame. unfold refreshAccessToken, refresh_request.
  change (WA_BASE_URL +:+ "/auth/token")
    with "https://oauth.wildapricot.org/auth/token".
  by rewrite Hsame.
Qed.

End Refresh.

Section Authorization.
Variable options : WildApricotOptions.

(** X17.  [validateAuthorizationCode] hands the shared helper the caller's
    code, code verifier and redirect URI unchanged, the fixed token endpoint
    [https://oauth.wildapricot.org/auth/token] (the one [refreshAccessToken]
    posts to, whatever the site name) with Basic authentication, and the
    same client options that [createAuthorizationURL] hands over. *)
Theorem code_validation_request code codeVerifier redirect state redirect' :
  exists request,
    (forall (TokenPromise : Type) (helper : CodeValidationRequest -> TokenPromise),
       validateAuthorizationCode helper options code codeVerifier redirect
       = helper request) /\
    tokenEndpoint request = "https://oauth.wildapricot.org/auth/token" /\
    authentication request = "basic" /\
    cv_code request = code /\
    cv_codeVerifier request = codeVerifier /\
    cv_redirectURI request = redirect /\
    cv_options request = au_options (authorization_request options state redirect') /\
    po_clientId (cv_options request) = clientId options /\
    po_clientSecret (cv_options request) = clientSecret options /\
    po_redirectURI (cv_options request) = redirectURI options.
Proof.
  eexists. split; [intros; reflexivity|]. by repeat split.
Qed.

(** X18.  For every configuration the authorization endpoint is
    [https://{subdomain}.wildapricot.org/sys/login/OAuthLogin] with a
    non-empty subdomain, which is [www] or the configured site name; the
    request carries the id [wildapricot] and the caller's state and
    redirect URI unchanged. *)
Theorem authorization_request_shape state redirect :
  exists request subdomain,
    (forall (AuthURL : Type) (helper : AuthorizationURLRequest -> AuthURL),
       createAuthorizationURL helper options state redirect = helper request) /\
    authorizationEndpoint request
    = "https://" +:+ subdomain +:+ ".wildapricot.org/sys/login/OAuthLogin" /\
    subdomain <> EmptyString /\
    (subdomain = "www" \/ siteName options = Some subdomain) /\
    au_id request = "wildapricot" /\
    au_state request = state /\
    au_redirectURI request = redirect.
Proof.
  assert (exists subdomain,
            WA_SITE_URL options = "https://" +:+ subdomain +:+ ".wildapricot.org" /\
            subdomain <> EmptyString /\
            (subdomain = "www" \/ siteName options = Some subdomain))
    as (subdomain & Hurl & Hne & Hsub).
  { unfold WA_SITE_URL. destruct (siteName options) as [[|c name]|].
    - exists "www". auto.
    - exists (String c name). auto.
    - exists "www". auto. }
  exists (authorization_request options state redirect), subdomain.
  split; [done|]. simpl. rewrite Hurl. split; [by rewrite !append_assoc|].
  by repeat split.
Qed.

End Authorization.

(** *** The theorems at concrete inputs *)

#[local] Existing Instance no_large_numerals.

Lemma fetched_ok options payload :
  truthy payload = true ->
  fetched (answering (ok payload)) options bearer payload.
Proof. intros Hp. by exists "at", VNull. Qed.

Lemma getUserInfo_result_shape_witness :
  exists result user,
    getUserInfo (answering (ok (member "Lapsed")))
      (club_setting_status "Active") bearer
    = Normal (VObj result) /\
    result !! "data" = Some (member "Active") /\
    result !! "user" = Some (VObj user) /\
    dom user = default_keys.
Proof.
  edestruct (getUserInfo_result_shape (answering (ok (member "Lapsed")))
               (club_setting_status "Active") bearer (member "Lapsed"))
    as (result & user & Hrun & _ & Hdata & _ & Huser & Hdom).
  - apply fetched_ok. reflexivity.
  - apply Properties.member_base.
  - reflexivity.
  - exists result, user. split; [exact Hrun|]. split; [|split; [exact Huser|]].
    + rewrite Hdata. reflexivity.
    + rewrite Hdom. simpl. rewrite dom_empty_L. apply (right_id_L ∅ (∪)).
Defined.

Lemma falsy_mapping_is_no_mapping_witness :
  getUserInfo (answering (ok (member "Active"))) (club_returning VNull) bearer
  = getUserInfo (answering (ok (member "Active")))
      (without_mapping (club_returning VNull)) bearer.
Proof.
  eapply (falsy_mapping_is_no_mapping (answering (ok (member "Active")))
            (club_returning VNull) bearer (member "Active")).
  - apply fetched_ok. reflexivity.
  - reflexivity.
  - reflexivity.
  - reflexivity.
  - reflexivity.
  - reflexivity.
Defined.

Lemma mapping_exception_propagates_witness :
  getUserInfo (answering (ok (member "Active")))
    (club_throwing (VStr "boom")) bearer
  = Throw (Thrown (VStr "boom")).
Proof.
  eapply (mapping_exception_propagates (answering (ok (member "Active")))
            (club_throwing (VStr "boom")) bearer (member "Active")).
  - apply fetched_ok. reflexivity.
  - apply Properties.member_base.
  - reflexivity.
  - reflexivity.
Defined.

Lemma getUserInfo_does_not_throw_witness :
  getUserInfo (answering (ok (member "Active"))) club bearer = Normal VNull \/
  exists user,
    getUserInfo (answering (ok (member "Active"))) club bearer
    = Normal (user_info user (data (ok (member "Active")))).
Proof.
  apply (getUserInfo_does_not_throw (answering (ok (member "Active"))) club
           bearer "at" (ok (member "Active")));
    reflexivity.
Defined.

Lemma name_default_witness :
  user_field (getUserInfo (answering (ok (member "Active"))) club bearer) "name"
  = Some (VStr "Ada Lovelace").
Proof.
  edestruct (name_default (answering (ok (member "Active"))) club bearer
               (member "Active"))
    as (first & last & _ & _ & Hname & Hfirst & Hlast & _).
  - apply fetched_ok. reflexivity.
  - apply Properties.member_base.
  - reflexivity.
  - reflexivity.
  - rewrite Hname, (Hfirst "Ada" eq_refl), (Hlast "Lovelace" eq_refl).
    reflexivity.
Defined.

Lemma email_and_isAdmin_verbatim_witness :
  user_field (getUserInfo (answering (ok (member "Active"))) club bearer) "email"
  = Some (VStr "ada@example.org") /\
  user_field (getUserInfo (answering (ok (member "Active"))) club bearer) "isAdmin"
  = Some (VBool true).
Proof.
  edestruct (email_and_isAdmin_verbatim (answering (ok (member "Active"))) club
               bearer (member "Active"))
    as (Hemail & Hadmin).
  - apply fetched_ok. reflexivity.
  - apply Properties.member_base.
  - reflexivity.
  - split.
    + apply Hemail; [reflexivity | left; reflexivity].
    + apply Hadmin; reflexivity.
Defined.

Lemma membershipLevel_is_level_name_witness :
  user_field (getUserInfo (answering (ok gold_member)) club bearer)
    "membershipLevel"
  = Some (VStr "Gold").
Proof.
  edestruct (membershipLevel_is_level_name (answering (ok gold_member)) club
               bearer gold_member)
    as (Hname & _).
  - apply fetched_ok. reflexivity.
  - reflexivity.
  - reflexivity.
  - reflexivity.
  - reflexivity.
  - apply Hname; reflexivity.
Defined.

Lemma blank_payload_gives_blank_user_witness :
  getUserInfo (answering (ok (VObj {[ "foo" := VNum (Fin 1) ]}))) club bearer
  = Normal (VObj (<["data" := VObj {[ "foo" := VNum (Fin 1) ]}]>
                   (<["user" := VObj blank_user]> ∅))).
Proof.
  apply (blank_payload_gives_blank_user
           (answering (ok (VObj {[ "foo" := VNum (Fin 1) ]}))) club bearer
           (VObj {[ "foo" := VNum (Fin 1) ]}));
    try reflexivity.
  apply fetched_ok. reflexivity.
Defined.

Lemma string_id_is_kept_witness :
  user_field
    (getUserInfo (answering (ok (contact_with_id (VStr "A-17")))) club bearer)
    "id"
  = Some (VStr "A-17").
Proof.
  eapply (string_id_is_kept (answering (ok (contact_with_id (VStr "A-17"))))
            club bearer (contact_with_id (VStr "A-17"))).
  - apply fetched_ok. reflexivity.
  - reflexivity.
  - reflexivity.
  - reflexivity.
  - reflexivity.
Defined.

Lemma refreshAccessToken_scope_not_a_string_witness :
  refreshAccessToken
    (answering (token_response (VNum (Fin 3600)) (VArr [VStr "contacts_me"])))
    noon identity_encoder no_numeric_strings club "old-rt"
  = Throw TypeError.
Proof.
  apply (refreshAccessToken_scope_not_a_string
           (answering (token_response (VNum (Fin 3600))
                         (VArr [VStr "contacts_me"])))
           noon identity_encoder no_numeric_strings club "old-rt"
           (token_response (VNum (Fin 3600)) (VArr [VStr "contacts_me"])));
    try reflexivity.
  intros s. discriminate.
Defined.

Lemma refreshAccessToken_without_data_witness :
  refreshAccessToken (answering (ok VNull)) noon identity_encoder
    no_numeric_strings club "old-rt"
  = Throw TypeError.
Proof.
  apply (refreshAccessToken_without_data (answering (ok VNull)) noon
           identity_encoder no_numeric_strings club "old-rt" (ok VNull));
    reflexivity.
Defined.

Lemma refreshAccessToken_null_fields_witness :
  refreshAccessToken (answering (token_response VNull VNull)) noon
    identity_encoder no_numeric_strings club "old-rt"
  = Normal {| accessToken := VStr "new-at";
              refreshToken := VStr "new-rt";
              accessTokenExpiresAt := None;
              tokenScopes := None |}.
Proof.
  apply (refreshAccessToken_null_fields (answering (token_response VNull VNull))
           noon identity_encoder no_numeric_strings club "old-rt"
           (token_response VNull VNull));
    reflexivity.
Defined.

Lemma refreshAccessToken_expiry_out_of_range_witness :
  exists tokens,
    refreshAccessToken
      (answering (token_response (VNum (Fin 10000000000000)) VUndef))
      noon identity_encoder no_numeric_strings club "old-rt"
    = Normal tokens /\
    accessTokenExpiresAt tokens = Some {| time_value := NaN |}.
Proof.
  eapply (refreshAccessToken_expiry_out_of_range
            (answering (token_response (VNum (Fin 10000000000000)) VUndef))
            noon identity_encoder no_numeric_strings club "old-rt"
            (token_response (VNum (Fin 10000000000000)) VUndef)
            (Fin 10000000000000)).
  - reflexivity.
  - reflexivity.
  - reflexivity.
  - reflexivity.
  - reflexivity.
  - right. exists 10000000000000. split; [reflexivity|]. split; [lia|].
    vm_compute. reflexivity.
Defined.

Lemma refreshAccessToken_scope_count_witness :
  exists tokens pieces,
    refreshAccessToken
      (answering (token_response VUndef (VStr "contacts_me  auto")))
      noon identity_encoder no_numeric_strings club "old-rt"
    = Normal tokens /\
    tokenScopes tokens = Some pieces /\
    length pieces = 3%nat.
Proof.
  apply (refreshAccessToken_scope_count
           (answering (token_response VUndef (VStr "contacts_me  auto")))
           noon identity_encoder no_numeric_strings club "old-rt"
           (token_response VUndef (VStr "contacts_me  auto"))
           "contacts_me  auto");
    reflexivity.
Defined.

Lemma refreshAccessToken_request_witness :
  refreshAccessToken (answering (failed 400)) noon identity_encoder
    no_numeric_strings club "old-rt"
  = refreshAccessToken
      (answering_at "https://oauth.wildapricot.org/auth/token" (failed 400))
      noon identity_encoder no_numeric_strings club "old-rt".
Proof.
  apply (refreshAccessToken_request (answering (failed 400)) noon
           identity_encoder no_numeric_strings club "old-rt"
           (answering_at "https://oauth.wildapricot.org/auth/token" (failed 400))).
  reflexivity.
Defined.

Lemma getUserInfo_request_witness :
  getUserInfo (answering (ok (member "Active"))) club bearer
  = getUserInfo
      (answering_at "https://api.wildapricot.org/v2.1/accounts/1234/contacts/me"
         (ok (member "Active")))
      club bearer.
Proof.
  apply (getUserInfo_request (answering (ok (member "Active"))) club bearer "at"
           (answering_at
              "https://api.wildapricot.org/v2.1/accounts/1234/contacts/me"
              (ok (member "Active"))));
    reflexivity.
Defined.

End Behaviour.
